(** * Elastic Transcoder pipeline module: model and properties

    A shallow embedding of [cloud/amazon/elastictranscoder.py]: the
    notification-key fix-up, the lookup of a pipeline by name, the equality
    check between a remote pipeline and the module parameters, and the two
    convergence entry points [create_et_pipeline] and [delete_et_pipeline].

    The remote service (the boto connection) is external to the module.  It is
    modelled as a record of methods over an abstract service state; every call
    the module issues is also appended to a log, so that statements such as
    "no update call is issued" can be made. *)

From stdpp Require Import gmap strings list fin_maps.
From Stdlib Require Import Ascii String.

Open Scope string_scope.
Open Scope list_scope.

(** ** Python byte strings: [str.title] and [str.lower]

    Python 2 [str] methods work byte by byte; in the C locale only the ASCII
    letters are cased. *)

Module PyStr.

Definition islower (c : ascii) : bool :=
  ((97 <=? N_of_ascii c) && (N_of_ascii c <=? 122))%N.

Definition isupper (c : ascii) : bool :=
  ((65 <=? N_of_ascii c) && (N_of_ascii c <=? 90))%N.

Definition toupper (c : ascii) : ascii :=
  if islower c then ascii_of_N (N_of_ascii c - 32) else c.

Definition tolower (c : ascii) : ascii :=
  if isupper c then ascii_of_N (N_of_ascii c + 32) else c.

(** One iteration of the loop of [str.title]: [prev] is the flag
    [previous_is_cased]; the result is the byte written and the new flag. *)
Definition title_step (prev : bool) (c : ascii) : ascii * bool :=
  if islower c then ((if prev then c else toupper c), true)
  else if isupper c then ((if prev then tolower c else c), true)
  else (c, false).

Fixpoint title_from (prev : bool) (s : string) : string :=
  match s with
  | EmptyString => EmptyString
  | String c s' =>
      let '(c', prev') := title_step prev c in
      String c' (title_from prev' s')
  end.

(** [s.title()] *)
Definition title (s : string) : string := title_from false s.

(** [s.lower()] *)
Fixpoint lower (s : string) : string :=
  match s with
  | EmptyString => EmptyString
  | String c s' => String (tolower c) (lower s')
  end.



Ltac each_byte c :=
  destruct c as [[] [] [] [] [] [] [] []]; vm_compute; try reflexivity;
  try discriminate.

Lemma title_step_idem (prev : bool) (c : ascii) :
  title_step prev (title_step prev c).1 = title_step prev c.
Proof. destruct prev; each_byte c. Qed.

Lemma title_from_idem (s : string) :
  ∀ prev, title_from prev (title_from prev s) = title_from prev s.
Proof.
  induction s as [|c s IH]; intros prev; [reflexivity|].
  cbn [title_from].
  pose proof (title_step_idem prev c) as Hc.
  destruct (title_step prev c) as [c' prev'] eqn:E. cbn [fst] in Hc.
  cbn [title_from]. rewrite Hc. by rewrite IH.
Qed.

Lemma title_idem (s : string) : title (title s) = title s.
Proof. apply title_from_idem. Qed.




End PyStr.

Example title_warning : PyStr.title "wArNiNg" = "Warning".
Proof. reflexivity. Qed.

Example title_two_words : PyStr.title "on error" = "On Error".
Proof. reflexivity. Qed.

Example title_digits : PyStr.title "3rd_key" = "3Rd_Key".
Proof. reflexivity. Qed.

(** ** Data model *)

(** The Python values handed to [exit_json]. *)
Inductive value :=
| VNone
| VBool (b : bool)
| VStr (s : string).

(** A string-or-[None] Python value, as [dict.get] returns it. *)
Definition of_get (o : option string) : value :=
  match o with
  | Some s => VStr s
  | None => VNone
  end.

(** A pipeline as the service's listing returns it.  The module only reads a
    pipeline through [pipeline.get(key)], which yields [None] for a missing
    key: each projection below is that [get], with [None] for Python's
    [None]. *)
Record pipeline := Pipeline {
  Id : option string;
  Name : option string;
  Role : option string;
  InputBucket : option string;
  OutputBucket : option string;
  Notifications : option (gmap string string)
}.

Inductive lifecycle := present | absent.

(** [module.params]: [name] is required, [state] defaults to [present], the
    other parameters are [None] when not given.  A [notifications] dictionary
    is given by its items in iteration order. *)
Module Params.
Record t := Build {
  name : string;
  input_bucket : option string;
  output_bucket : option string;
  notifications : option (list (string * string));
  role : option string;
  state : lifecycle
}.
End Params.

(** The calls the module issues on the connection. *)
Inductive call :=
| Call_list_pipelines
| Call_create_pipeline (name : string) (input_bucket output_bucket role : option string)
    (notifications : gmap string string)
| Call_update_pipeline (id : option string) (name : string)
    (input_bucket role : option string) (notifications : gmap string string)
| Call_delete_pipeline (id : option string).

(** A call that changes the remote state. *)
Definition is_mutation (c : call) : bool :=
  match c with
  | Call_list_pipelines => false
  | _ => true
  end.

(** How [AnsibleModule] ends the process. *)
Inductive exit :=
| exit_json (kwargs : list (string * value))
| fail_json (msg : string).

(** ** fix_up_notifications_dict *)

(** The loop [for key,value in dictionary.iteritems():
    new_dictionary[key.title()] = value] over the items in iteration order. *)
Definition fix_up_notifications_dict (dictionary : list (string * string))
  : gmap string string :=
  foldl (λ new_dictionary kv, <[PyStr.title kv.1 := kv.2]> new_dictionary) ∅ dictionary.

(** The loop of [get_et_pipeline]: [found_pipeline] starts as [None]; the
    first [i] with [i.get("Name") == name] is kept and the loop left. *)
Fixpoint first_named (name : string) (pipelines : list pipeline) : option pipeline :=
  match pipelines with
  | [] => None
  | i :: rest =>
      if decide (Name i = Some name) then Some i else first_named name rest
  end.

Section Reconciler.

(** The state of the remote service and boto's error type with its [str]. *)
Context {remote : Type} {BotoServerError : Type}.
Variable str : BotoServerError → string.

(** The boto connection: each method either raises a [BotoServerError] or
    returns, and leaves the service in a new state.  [list_pipelines] stands
    for [connection.list_pipelines().get("Pipelines")]. *)
Record connection := Connection {
  list_pipelines : remote → (BotoServerError + list pipeline) * remote;
  create_pipeline : string → option string → option string → option string →
                    gmap string string → remote → (BotoServerError + ()) * remote;
  update_pipeline : option string → string → option string → option string →
                    gmap string string → remote → (BotoServerError + ()) * remote;
  delete_pipeline : option string → remote → (BotoServerError + ()) * remote
}.

Inductive exn :=
| SystemExit (x : exit)
| Boto (e : BotoServerError)
| AttributeError.

Record world := World { service : remote; log : list call }.

(** Computations that may raise and that talk to the service. *)
Definition M (A : Type) : Type := world → (exn + A) * world.

Definition ret {A} (a : A) : M A := λ w, (inr a, w).

Definition raise {A} (e : exn) : M A := λ w, (inl e, w).

Definition bind {A B} (m : M A) (k : A → M B) : M B :=
  λ w, match m w with
       | (inr a, w') => k a w'
       | (inl e, w') => (inl e, w')
       end.

Notation "x <- m ;; k" := (bind m (λ x, k))
  (at level 100, m at next level, right associativity).
Notation "m ;;; k" := (bind m (λ _, k))
  (at level 100, right associativity).

(** [try: body except BotoServerError, e: handler] *)
Definition try_except {A} (body : M A) (handler : BotoServerError → M A) : M A :=
  λ w, match body w with
       | (inl (Boto e), w') => handler e w'
       | r => r
       end.

(** A method call on the connection, logged. *)
Definition invoke {A} (c : call)
    (method : remote → (BotoServerError + A) * remote) : M A :=
  λ w, let '(r, s') := method (service w) in
       (match r with inl e => inl (Boto e) | inr a => inr a end,
        {| service := s'; log := log w ++ [c] |}).

(** [o.get(key)] on a value that may be [None]. *)
Definition get {A} (o : option pipeline) (key : pipeline → option A) : M (option A) :=
  match o with
  | Some p => ret (key p)
  | None => raise AttributeError
  end.

(** [dictionary.iteritems()] on a parameter that may be [None]. *)
Definition iteritems (d : option (list (string * string))) : M (list (string * string)) :=
  match d with
  | Some items => ret items
  | None => raise AttributeError
  end.

Definition module_exit_json {A} (kwargs : list (string * value)) : M A :=
  raise (SystemExit (exit_json kwargs)).

Definition module_fail_json {A} (msg : string) : M A :=
  raise (SystemExit (fail_json msg)).

Definition get_et_pipeline (c : connection) (name : string) : M (option pipeline) :=
  pipelines <- invoke Call_list_pipelines (list_pipelines c) ;;
  ret (first_named name pipelines).

(** [et_pipeline_equal]: the two dictionaries it builds have the same four
    keys, so each is given by its four entries, in the order [Role], [Name],
    [Notifications], [InputBucket]; [OutputBucket] is not among them. *)
Definition pipeline_dict (p : pipeline) :=
  (Role p, Name p, Notifications p, InputBucket p).

Definition module_dict (module : Params.t) (items : list (string * string)) :=
  (Params.role module, Some (Params.name module),
   Some (fix_up_notifications_dict items), Params.input_bucket module).

Definition et_pipeline_equal (p : pipeline) (module : Params.t) : M bool :=
  items <- iteritems (Params.notifications module) ;;
  if decide (pipeline_dict p = module_dict module items) then ret true
  else ret false.

(** In [create_et_pipeline] and [delete_et_pipeline] the tests [not pipeline]
    and [pipeline] are on the result of [get_et_pipeline]: either [None] or a
    dictionary that has a ["Name"] entry, hence a true value. *)
Definition create_et_pipeline (c : connection) (module : Params.t) : M () :=
  let name := Params.name module in
  let input_bucket := Params.input_bucket module in
  let output_bucket := Params.output_bucket module in
  items <- iteritems (Params.notifications module) ;;
  let notifications := fix_up_notifications_dict items in
  let role := Params.role module in
  pipeline <- get_et_pipeline c name ;;
  pc <- match pipeline with
        | None =>
            try_except
              (invoke (Call_create_pipeline name input_bucket output_bucket role notifications)
                 (create_pipeline c name input_bucket output_bucket role notifications) ;;;
               pipeline <- get_et_pipeline c name ;;
               ret (pipeline, true))
              (λ e, module_fail_json (str e))
        | Some p =>
            eq <- et_pipeline_equal p module ;;
            if negb eq then
              try_except
                (invoke (Call_update_pipeline (Id p) name input_bucket role notifications)
                   (update_pipeline c (Id p) name input_bucket role notifications) ;;;
                 ret (pipeline, true))
                (λ e, module_fail_json (str e))
            else ret (pipeline, false)
        end ;;
  let '(result, changed) := pc in
  n <- get result Name ;;
  i <- get result Id ;;
  module_exit_json [("changed", VBool changed); ("name", of_get n); ("Id", of_get i)].

Definition delete_et_pipeline (c : connection) (module : Params.t) : M () :=
  let name := Params.name module in
  pipeline <- get_et_pipeline c name ;;
  match pipeline with
  | Some p =>
      try_except
        (invoke (Call_delete_pipeline (Id p)) (delete_pipeline c (Id p)) ;;;
         module_exit_json [("changed", VBool true); ("Id", of_get (Id p))])
        (λ e, module_fail_json (str e))
  | None => module_exit_json [("changed", VBool false)]
  end.

(** The dispatch at the end of [main], once the connection is made. *)
Definition main (c : connection) (module : Params.t) : M () :=
  match Params.state module with
  | present => create_et_pipeline c module
  | absent => delete_et_pipeline c module
  end.

End Reconciler.

Arguments connection : clear implicits.
Arguments exn : clear implicits.
Arguments world : clear implicits.

(** ** The whole of [main]

    What [main] does before the dispatch.  [HAS_BOTO] is the flag set by the
    import of boto; [region] is the region that [get_aws_connection_info]
    returns; [connect_to_aws] either raises one of the exceptions that [main]
    catches, given here by its [str], or returns the connection. *)
Module Script.
Section Script.

Context {remote : Type} {BotoServerError : Type}.
Variable str : BotoServerError → string.

Record environment := Environment {
  HAS_BOTO : bool;
  region : option string;
  connect_to_aws : string → string + connection remote BotoServerError
}.

(** [if region:] is false on [None] and on the empty string. *)
Definition region_given (region : option string) : option string :=
  match region with
  | Some r => if decide (r = "") then None else Some r
  | None => None
  end.

Definition main (env : environment) (module : Params.t)
  : M (remote := remote) (BotoServerError := BotoServerError) () :=
  if negb (HAS_BOTO env) then module_fail_json "boto required for this module"
  else
    match region_given (region env) with
    | Some r =>
        match connect_to_aws env r with
        | inl msg => module_fail_json msg
        | inr connection => main str connection module
        end
    | None => module_fail_json "region must be specified"
    end.

End Script.
End Script.

(** ** A sample service

    An in-memory stand-in for the remote service, used to run the module on
    concrete inputs: the state is the list of pipelines, errors are their own
    message.  [create_pipeline] appends a pipeline whose id is derived from
    its name; [update_pipeline] rewrites the four fields it is given on the
    pipelines with that id; [delete_pipeline] drops them. *)
Module Sample.

Definition created (name : string) (input_bucket output_bucket role : option string)
    (notifications : gmap string string) : pipeline :=
  {| Id := Some ("id-" +:+ name); Name := Some name; Role := role;
     InputBucket := input_bucket; OutputBucket := output_bucket;
     Notifications := Some notifications |}.

Definition updated (id : option string) (name : string)
    (input_bucket role : option string) (notifications : gmap string string)
    (p : pipeline) : pipeline :=
  if decide (Id p = id) then
    {| Id := Id p; Name := Some name; Role := role; InputBucket := input_bucket;
       OutputBucket := OutputBucket p; Notifications := Some notifications |}
  else p.

Definition conn : connection (list pipeline) string :=
  {| list_pipelines := λ s, (inr s, s);
     create_pipeline := λ name ib ob role n s, (inr (), s ++ [created name ib ob role n]);
     update_pipeline := λ id name ib role n s, (inr (), updated id name ib role n <$> s);
     delete_pipeline := λ id s, (inr (), filter (λ p, Id p ≠ id) s) |}.

(** A service that refuses every change with the message [msg]. *)
Definition read_only (msg : string) : connection (list pipeline) string :=
  {| list_pipelines := λ s, (inr s, s);
     create_pipeline := λ _ _ _ _ _ s, (inl msg, s);
     update_pipeline := λ _ _ _ _ _ s, (inl msg, s);
     delete_pipeline := λ _ s, (inl msg, s) |}.

(** A service that accepts a creation but does not list the new pipeline
    yet. *)
Definition lagging : connection (list pipeline) string :=
  {| list_pipelines := λ s, (inr s, s);
     create_pipeline := λ _ _ _ _ _ s, (inr (), s);
     update_pipeline := λ id name ib role n s, (inr (), updated id name ib role n <$> s);
     delete_pipeline := λ id s, (inr (), filter (λ p, Id p ≠ id) s) |}.

(** The parameters of the module's documented example, shortened. *)
Definition prod (st : lifecycle) : Params.t :=
  {| Params.name := "prod"; Params.input_bucket := Some "in";
     Params.output_bucket := Some "out";
     Params.notifications :=
       Some [("progressing", ""); ("completed", "arn:1");
             ("warning", "arn:1"); ("error", "arn:1")];
     Params.role := Some "arn:role"; Params.state := st |}.

Definition prod_notifications : gmap string string :=
  <["Error" := "arn:1"]> (<["Warning" := "arn:1"]>
    (<["Completed" := "arn:1"]> (<["Progressing" := ""]> ∅))).

Definition prod_pipeline : pipeline :=
  created "prod" (Some "in") (Some "out") (Some "arn:role") prod_notifications.

Definition start (s : list pipeline) : world (list pipeline) := World s [].

End Sample.

Example sample_fix_up :
  fix_up_notifications_dict
    [("progressing", ""); ("completed", "arn:1"); ("warning", "arn:1"); ("error", "arn:1")]
  = Sample.prod_notifications.
Proof. reflexivity. Qed.

Example sample_create :
  main id Sample.conn (Sample.prod present) (Sample.start [])
  = (inl (SystemExit (exit_json
       [("changed", VBool true); ("name", VStr "prod"); ("Id", VStr "id-prod")])),
     World [Sample.prod_pipeline]
       [Call_list_pipelines;
        Call_create_pipeline "prod" (Some "in") (Some "out") (Some "arn:role")
          Sample.prod_notifications;
        Call_list_pipelines]).
Proof. vm_compute. reflexivity. Qed.

Example sample_create_again :
  main id Sample.conn (Sample.prod present) (Sample.start [Sample.prod_pipeline])
  = (inl (SystemExit (exit_json
       [("changed", VBool false); ("name", VStr "prod"); ("Id", VStr "id-prod")])),
     World [Sample.prod_pipeline] [Call_list_pipelines]).
Proof. vm_compute. reflexivity. Qed.

Example sample_delete_nothing :
  main id Sample.conn (Sample.prod absent) (Sample.start [])
  = (inl (SystemExit (exit_json [("changed", VBool false)])),
     World [] [Call_list_pipelines]).
Proof. reflexivity. Qed.

(** ** Properties of the notification-key fix-up *)

Section FixUp.

Implicit Types (items : list (string * string)) (k v : string).

Lemma fix_up_snoc items k v :
  fix_up_notifications_dict (items ++ [(k, v)])
  = <[PyStr.title k := v]> (fix_up_notifications_dict items).
Proof. unfold fix_up_notifications_dict. by rewrite foldl_app. Qed.

(** Every key of the result is a fixed point of [title]. *)
Lemma fix_up_keys_titled items k :
  is_Some (fix_up_notifications_dict items !! k) → PyStr.title k = k.
Proof.
  induction items as [|[k' v'] items IH] using rev_ind.
  - unfold fix_up_notifications_dict. cbn [foldl].
    intros [? H]. by rewrite lookup_empty in H.
  - rewrite fix_up_snoc, lookup_insert. case_decide as Hk; [|exact IH].
    intros _. rewrite <- Hk. apply PyStr.title_idem.
Qed.



End FixUp.


(** ** The scan of [get_et_pipeline] *)

Lemma first_named_Some (name : string) (pipelines : list pipeline) (p : pipeline) :
  first_named name pipelines = Some p ↔
  ∃ before after,
    pipelines = before ++ p :: after
    ∧ Name p = Some name
    ∧ Forall (λ q, Name q ≠ Some name) before.
Proof.
  split.
  - induction pipelines as [|i rest IH]; [done|]. cbn [first_named].
    case_decide as Hi.
    + intros [= ->]. by exists [], rest.
    + intros (before & after & -> & Hp & Hb)%IH.
      exists (i :: before), after. by repeat constructor.
  - intros (before & after & -> & Hp & Hb).
    induction Hb as [|q before Hq _ IH]; cbn [app first_named].
    + by rewrite decide_True.
    + by rewrite decide_False.
Qed.

Lemma first_named_None (name : string) (pipelines : list pipeline) :
  first_named name pipelines = None ↔
  Forall (λ q, Name q ≠ Some name) pipelines.
Proof.
  induction pipelines as [|i rest IH]; cbn [first_named].
  - split; [constructor|done].
  - rewrite Forall_cons. case_decide; [|tauto].
    split; [done|]. by intros [? _].
Qed.

Lemma first_named_name (name : string) (pipelines : list pipeline) (p : pipeline) :
  first_named name pipelines = Some p → Name p = Some name.
Proof. intros (_ & _ & _ & H & _)%first_named_Some. exact H. Qed.

(** ** Running the module against a connection *)

Definition set_output_bucket (ob : option string) (module : Params.t) : Params.t :=
  {| Params.name := Params.name module;
     Params.input_bucket := Params.input_bucket module;
     Params.output_bucket := ob;
     Params.notifications := Params.notifications module;
     Params.role := Params.role module;
     Params.state := Params.state module |}.

Definition set_OutputBucket (ob : option string) (p : pipeline) : pipeline :=
  {| Id := Id p; Name := Name p; Role := Role p; InputBucket := InputBucket p;
     OutputBucket := ob; Notifications := Notifications p |}.

(** The keyword arguments of the three successful reports. *)
Definition report (changed : bool) (p : pipeline) : list (string * value) :=
  [("changed", VBool changed); ("name", of_get (Name p)); ("Id", of_get (Id p))].

Section Convergence.

Context {remote : Type} {BotoServerError : Type}.
Variable str : BotoServerError → string.
Variable c : connection remote BotoServerError.

Implicit Types (module : Params.t) (p : pipeline) (s : remote) (l : list call)
  (items : list (string * string)) (pipelines : list pipeline).

Abbreviation exits kwargs := (inl (SystemExit (exit_json kwargs))) (only parsing).
Abbreviation fails msg := (inl (SystemExit (fail_json msg))) (only parsing).

Lemma get_et_pipeline_returns name s l pipelines s1 :
  list_pipelines c s = (inr pipelines, s1) →
  get_et_pipeline c name (World s l)
  = (inr (first_named name pipelines), World s1 (l ++ [Call_list_pipelines])).
Proof.
  intros H. unfold get_et_pipeline, bind, invoke, ret. cbn. by rewrite H.
Qed.

Lemma get_et_pipeline_raises name s l e s1 :
  list_pipelines c s = (inl e, s1) →
  get_et_pipeline c name (World s l)
  = (inl (Boto e), World s1 (l ++ [Call_list_pipelines])).
Proof.
  intros H. unfold get_et_pipeline, bind, invoke, ret. cbn. by rewrite H.
Qed.

Lemma et_pipeline_equal_returns p module items (w : world remote) :
  Params.notifications module = Some items →
  et_pipeline_equal (BotoServerError := BotoServerError) p module w
  = (inr (bool_decide (pipeline_dict p = module_dict module items)), w).
Proof.
  intros H. unfold et_pipeline_equal, bind, iteritems, ret. rewrite H.
  rewrite bool_decide_decide. by case_decide.
Qed.

(** [create_et_pipeline] when the first listing has no pipeline of that
    name. *)
Lemma create_et_pipeline_missing module items s l pipelines s1 :
  Params.notifications module = Some items →
  list_pipelines c s = (inr pipelines, s1) →
  first_named (Params.name module) pipelines = None →
  let create :=
    Call_create_pipeline (Params.name module) (Params.input_bucket module)
      (Params.output_bucket module) (Params.role module)
      (fix_up_notifications_dict items) in
  create_et_pipeline str c module (World s l)
  = match create_pipeline c (Params.name module) (Params.input_bucket module)
            (Params.output_bucket module) (Params.role module)
            (fix_up_notifications_dict items) s1 with
    | (inl e, s2) =>
        (fails (str e), World s2 (l ++ [Call_list_pipelines; create]))
    | (inr _, s2) =>
        match list_pipelines c s2 with
        | (inl e, s3) =>
            (fails (str e),
             World s3 (l ++ [Call_list_pipelines; create; Call_list_pipelines]))
        | (inr pipelines', s3) =>
            match first_named (Params.name module) pipelines' with
            | Some p' =>
                (exits (report true p'),
                 World s3 (l ++ [Call_list_pipelines; create; Call_list_pipelines]))
            | None =>
                (inl AttributeError,
                 World s3 (l ++ [Call_list_pipelines; create; Call_list_pipelines]))
            end
        end
    end.
Proof.
  intros Hn Hl Hf create. unfold create_et_pipeline.
  unfold bind at 1. unfold iteritems, ret at 1. rewrite Hn.
  unfold bind at 1. rewrite (get_et_pipeline_returns _ _ _ _ _ Hl), Hf.
  unfold bind at 1, try_except, bind at 1, invoke at 1. cbn [service log].
  destruct (create_pipeline c _ _ _ _ _ s1) as [[e|[]] s2];
    [by rewrite <- app_assoc|].
  unfold bind at 1, get_et_pipeline, bind at 1, invoke, ret. cbn [service log].
  destruct (list_pipelines c s2) as [[e|pipelines'] s3];
    [by rewrite <- !app_assoc|].
  rewrite <- !app_assoc.
  by destruct (first_named _ pipelines') as [p'|].
Qed.

(** [create_et_pipeline] when the listing has a pipeline of that name. *)
Lemma create_et_pipeline_found module items s l pipelines s1 p :
  Params.notifications module = Some items →
  list_pipelines c s = (inr pipelines, s1) →
  first_named (Params.name module) pipelines = Some p →
  let update :=
    Call_update_pipeline (Id p) (Params.name module) (Params.input_bucket module)
      (Params.role module) (fix_up_notifications_dict items) in
  create_et_pipeline str c module (World s l)
  = if bool_decide (pipeline_dict p = module_dict module items) then
      (exits (report false p), World s1 (l ++ [Call_list_pipelines]))
    else
      match update_pipeline c (Id p) (Params.name module)
              (Params.input_bucket module) (Params.role module)
              (fix_up_notifications_dict items) s1 with
      | (inl e, s2) =>
          (fails (str e), World s2 (l ++ [Call_list_pipelines; update]))
      | (inr _, s2) =>
          (exits (report true p), World s2 (l ++ [Call_list_pipelines; update]))
      end.
Proof.
  intros Hn Hl Hf update. unfold create_et_pipeline.
  unfold bind at 1. unfold iteritems, ret at 1. rewrite Hn.
  unfold bind at 1. rewrite (get_et_pipeline_returns _ _ _ _ _ Hl), Hf.
  unfold bind at 1, bind at 1.
  rewrite (et_pipeline_equal_returns _ _ _ _ Hn).
  destruct (bool_decide _); cbn [negb]; [done|].
  unfold try_except, bind at 1, invoke. cbn [service log].
  destruct (update_pipeline c _ _ _ _ _ s1) as [[e|[]] s2];
    by rewrite <- app_assoc.
Qed.

Lemma delete_et_pipeline_runs module s l pipelines s1 :
  list_pipelines c s = (inr pipelines, s1) →
  delete_et_pipeline str c module (World s l)
  = match first_named (Params.name module) pipelines with
    | None =>
        (exits [("changed", VBool false)], World s1 (l ++ [Call_list_pipelines]))
    | Some p =>
        match delete_pipeline c (Id p) s1 with
        | (inl e, s2) =>
            (fails (str e),
             World s2 (l ++ [Call_list_pipelines; Call_delete_pipeline (Id p)]))
        | (inr _, s2) =>
            (exits [("changed", VBool true); ("Id", of_get (Id p))],
             World s2 (l ++ [Call_list_pipelines; Call_delete_pipeline (Id p)]))
        end
    end.
Proof.
  intros Hl. unfold delete_et_pipeline.
  unfold bind at 1. rewrite (get_et_pipeline_returns _ _ _ _ _ Hl).
  destruct (first_named _ pipelines) as [p|]; [|done].
  unfold try_except, bind, invoke. cbn [service log].
  destruct (delete_pipeline c (Id p) s1) as [[e|[]] s2];
    by rewrite <- app_assoc.
Qed.

(** ** Convergence to [present] *)

(** C1.  When the listing has a pipeline of the desired name whose role,
    normalised notifications and input bucket equal the desired ones (its
    name does, since it was found by it), [create_et_pipeline] only lists:
    no create and no update call is issued, and it exits with
    [changed=False] and the name and id of the pipeline found. *)
Theorem create_et_pipeline_equal_is_noop module items s l pipelines s1 p :
  Params.notifications module = Some items →
  list_pipelines c s = (inr pipelines, s1) →
  first_named (Params.name module) pipelines = Some p →
  Role p = Params.role module →
  Notifications p = Some (fix_up_notifications_dict items) →
  InputBucket p = Params.input_bucket module →
  create_et_pipeline str c module (World s l)
  = (exits [("changed", VBool false); ("name", of_get (Name p)); ("Id", of_get (Id p))],
     World s1 (l ++ [Call_list_pipelines])).
Proof.
  intros Hn Hl Hf Hrole Hnotif Hin.
  rewrite (create_et_pipeline_found _ _ _ _ _ _ _ Hn Hl Hf).
  rewrite bool_decide_true; [done|].
  unfold pipeline_dict, module_dict.
  by rewrite Hrole, Hnotif, Hin, (first_named_name _ _ _ Hf).
Qed.

(** C2.  When the listing has no pipeline of the desired name,
    [create_et_pipeline] calls [create_pipeline] with exactly the name, the
    input bucket, the output bucket, the role and the normalised
    notifications, right after the listing, and issues no other change.  When
    that call returns and the second lookup by name finds a pipeline, it exits
    with [changed=True] and the name and id of the pipeline found by that
    second lookup. *)
Theorem create_et_pipeline_creates module items s l pipelines s1 :
  Params.notifications module = Some items →
  list_pipelines c s = (inr pipelines, s1) →
  first_named (Params.name module) pipelines = None →
  let create :=
    Call_create_pipeline (Params.name module) (Params.input_bucket module)
      (Params.output_bucket module) (Params.role module)
      (fix_up_notifications_dict items) in
  (∃ rest,
     log (create_et_pipeline str c module (World s l)).2
     = l ++ [Call_list_pipelines; create] ++ rest
     ∧ Forall (λ k, is_mutation k = false) rest)
  ∧ (∀ s2 pipelines' s3 p',
       create_pipeline c (Params.name module) (Params.input_bucket module)
         (Params.output_bucket module) (Params.role module)
         (fix_up_notifications_dict items) s1 = (inr (), s2) →
       list_pipelines c s2 = (inr pipelines', s3) →
       first_named (Params.name module) pipelines' = Some p' →
       create_et_pipeline str c module (World s l)
       = (exits [("changed", VBool true); ("name", of_get (Name p'));
                 ("Id", of_get (Id p'))],
          World s3 (l ++ [Call_list_pipelines; create; Call_list_pipelines]))).
Proof.
  intros Hn Hl Hf create.
  rewrite (create_et_pipeline_missing _ _ _ _ _ _ Hn Hl Hf). fold create.
  split.
  - destruct (create_pipeline c _ _ _ _ _ s1) as [[e|[]] s2].
    { exists []. by split. }
    destruct (list_pipelines c s2) as [[e|pipelines'] s3].
    { exists [Call_list_pipelines]. split; [done|]. by repeat constructor. }
    exists [Call_list_pipelines].
    destruct (first_named _ pipelines'); (split; [done|]); by repeat constructor.
  - intros s2 pipelines' s3 p' -> -> ->. done.
Qed.

(** C4.  When the pipeline found differs from the desired state in a compared
    field, [create_et_pipeline] calls [update_pipeline] with exactly the id
    of the pipeline found, the name, the input bucket, the role and the
    normalised notifications, and nothing else after the listing; when the
    call returns it exits with [changed=True].  The output bucket is not
    sent: the whole run, the calls issued and the state the service is left
    in included, is the same whatever [output_bucket] the module was given. *)
Theorem create_et_pipeline_update_omits_output_bucket module items s l pipelines s1 p :
  Params.notifications module = Some items →
  list_pipelines c s = (inr pipelines, s1) →
  first_named (Params.name module) pipelines = Some p →
  pipeline_dict p ≠ module_dict module items →
  let update :=
    Call_update_pipeline (Id p) (Params.name module) (Params.input_bucket module)
      (Params.role module) (fix_up_notifications_dict items) in
  log (create_et_pipeline str c module (World s l)).2
  = l ++ [Call_list_pipelines; update]
  ∧ (∀ s2,
       update_pipeline c (Id p) (Params.name module) (Params.input_bucket module)
         (Params.role module) (fix_up_notifications_dict items) s1 = (inr (), s2) →
       create_et_pipeline str c module (World s l)
       = (exits [("changed", VBool true); ("name", of_get (Name p));
                 ("Id", of_get (Id p))],
          World s2 (l ++ [Call_list_pipelines; update])))
  ∧ (∀ ob,
       create_et_pipeline str c (set_output_bucket ob module) (World s l)
       = create_et_pipeline str c module (World s l)).
Proof.
  intros Hn Hl Hf Hne update.
  rewrite (create_et_pipeline_found _ _ _ _ _ _ _ Hn Hl Hf).
  rewrite bool_decide_false by done. fold update.
  split; [|split].
  - by destruct (update_pipeline c _ _ _ _ _ s1) as [[e|[]] s2].
  - by intros s2 ->.
  - intros ob.
    rewrite (create_et_pipeline_found (set_output_bucket ob module) items
               s l pipelines s1 p Hn Hl Hf).
    by rewrite bool_decide_false by done.
Qed.

(** C10.  On the create branch the pipeline of the second lookup is used
    without a [None] check: when [create_pipeline] returns and the second
    lookup finds no pipeline of that name, [result.get("Name")] is reached
    with [result = None]; the run ends in an uncaught [AttributeError], after
    the creation, with neither [exit_json] nor [fail_json] called. *)
Theorem create_et_pipeline_refetch_none module items s l pipelines s1 s2 pipelines' s3 :
  Params.notifications module = Some items →
  list_pipelines c s = (inr pipelines, s1) →
  first_named (Params.name module) pipelines = None →
  create_pipeline c (Params.name module) (Params.input_bucket module)
    (Params.output_bucket module) (Params.role module)
    (fix_up_notifications_dict items) s1 = (inr (), s2) →
  list_pipelines c s2 = (inr pipelines', s3) →
  first_named (Params.name module) pipelines' = None →
  create_et_pipeline str c module (World s l)
  = (inl AttributeError,
     World s3
       (l ++ [Call_list_pipelines;
              Call_create_pipeline (Params.name module) (Params.input_bucket module)
                (Params.output_bucket module) (Params.role module)
                (fix_up_notifications_dict items);
              Call_list_pipelines])).
Proof.
  intros Hn Hl Hf Hc Hl' Hf'.
  rewrite (create_et_pipeline_missing _ _ _ _ _ _ Hn Hl Hf).
  by rewrite Hc, Hl', Hf'.
Qed.

(** ** The equality check *)

(** C5.  [et_pipeline_equal] returns one boolean, true exactly when [Role],
    [Name], [Notifications] (against the normalised parameter) and
    [InputBucket] all agree; it gives the same answer whatever the output
    bucket of the pipeline and of the parameters.  So on a pipeline that
    agrees with the parameters on those fields [create_et_pipeline] exits
    with [changed=False] after the listing alone, whatever the two output
    buckets are. *)
Theorem et_pipeline_equal_four_fields module items p :
  Params.notifications module = Some items →
  (∀ w : world remote,
     et_pipeline_equal (BotoServerError := BotoServerError) p module w
     = (inr (bool_decide (Role p = Params.role module
                          ∧ Name p = Some (Params.name module)
                          ∧ Notifications p = Some (fix_up_notifications_dict items)
                          ∧ InputBucket p = Params.input_bucket module)), w))
  ∧ (∀ (w : world remote) ob ob',
       et_pipeline_equal (BotoServerError := BotoServerError)
         (set_OutputBucket ob p) (set_output_bucket ob' module) w
       = et_pipeline_equal p module w)
  ∧ (∀ s l pipelines s1 ob ob',
       list_pipelines c s = (inr pipelines, s1) →
       first_named (Params.name module) pipelines = Some (set_OutputBucket ob p) →
       Role p = Params.role module →
       Notifications p = Some (fix_up_notifications_dict items) →
       InputBucket p = Params.input_bucket module →
       create_et_pipeline str c (set_output_bucket ob' module) (World s l)
       = (exits [("changed", VBool false); ("name", of_get (Name p));
                 ("Id", of_get (Id p))],
          World s1 (l ++ [Call_list_pipelines]))).
Proof.
  intros Hn. split; [|split].
  - intros w. rewrite (et_pipeline_equal_returns _ _ _ _ Hn).
    do 2 f_equal. apply bool_decide_ext.
    unfold pipeline_dict, module_dict. split.
    + by intros [= -> -> -> ->].
    + by intros (-> & -> & -> & ->).
  - intros w ob ob'.
    rewrite (et_pipeline_equal_returns p module items w Hn).
    by rewrite (et_pipeline_equal_returns (set_OutputBucket ob p)
                  (set_output_bucket ob' module) items w Hn).
  - intros s l pipelines s1 ob ob' Hl Hf Hrole Hnotif Hin.
    rewrite (create_et_pipeline_found (set_output_bucket ob' module) items
               s l pipelines s1 (set_OutputBucket ob p) Hn Hl Hf).
    rewrite bool_decide_true; [done|].
    unfold pipeline_dict, module_dict. cbn.
    apply first_named_name in Hf. cbn in Hf.
    by rewrite Hrole, Hnotif, Hin, Hf.
Qed.

(** ** The lookup by name *)

(** C7.  [get_et_pipeline] lists the pipelines once and returns the first
    one of the listing whose [Name] is the requested name: every pipeline
    before it has another name, whatever comes after it; it returns [None]
    exactly when no pipeline of the listing has that name. *)
Theorem get_et_pipeline_first_match name s l pipelines s1 :
  list_pipelines c s = (inr pipelines, s1) →
  ∃ found,
    get_et_pipeline c name (World s l)
    = (inr found, World s1 (l ++ [Call_list_pipelines]))
    ∧ (∀ p, found = Some p ↔
            ∃ before after,
              pipelines = before ++ p :: after
              ∧ Name p = Some name
              ∧ Forall (λ q, Name q ≠ Some name) before)
    ∧ (found = None ↔ Forall (λ q, Name q ≠ Some name) pipelines).
Proof.
  intros Hl. exists (first_named name pipelines). split; [|split].
  - by apply get_et_pipeline_returns.
  - intros p. apply first_named_Some.
  - apply first_named_None.
Qed.

(** ** Convergence to [absent] *)

(** C3.  [delete_et_pipeline]: when the listing has no pipeline of the
    desired name, nothing is called after the listing and the module exits
    with [changed=False]; when it has one, [delete_pipeline] is called with
    the id of the first such pipeline and nothing else, and when that call
    returns the module exits with [changed=True]. *)
Theorem delete_et_pipeline_converges module s l pipelines s1 :
  list_pipelines c s = (inr pipelines, s1) →
  (first_named (Params.name module) pipelines = None →
   delete_et_pipeline str c module (World s l)
   = (exits [("changed", VBool false)], World s1 (l ++ [Call_list_pipelines])))
  ∧ (∀ p,
       first_named (Params.name module) pipelines = Some p →
       log (delete_et_pipeline str c module (World s l)).2
       = l ++ [Call_list_pipelines; Call_delete_pipeline (Id p)]
       ∧ (∀ s2,
            delete_pipeline c (Id p) s1 = (inr (), s2) →
            delete_et_pipeline str c module (World s l)
            = (exits [("changed", VBool true); ("Id", of_get (Id p))],
               World s2 (l ++ [Call_list_pipelines; Call_delete_pipeline (Id p)])))).
Proof.
  intros Hl. rewrite (delete_et_pipeline_runs _ _ _ _ _ Hl).
  split.
  - by intros ->.
  - intros p ->. split.
    + by destruct (delete_pipeline c (Id p) s1) as [[e|[]] s2].
    + by intros s2 ->.
Qed.

(** ** Errors of the remote service *)

(** C8.  When [create_pipeline], [update_pipeline] or [delete_pipeline]
    raises a [BotoServerError], the module stops there: it calls [fail_json]
    with [str] of that error as the message, and the failing call is the last
    call issued, so it is neither repeated nor followed by another change. *)
Theorem remote_error_aborts module items s l pipelines s1 e s2 :
  list_pipelines c s = (inr pipelines, s1) →
  (Params.notifications module = Some items →
   first_named (Params.name module) pipelines = None →
   create_pipeline c (Params.name module) (Params.input_bucket module)
     (Params.output_bucket module) (Params.role module)
     (fix_up_notifications_dict items) s1 = (inl e, s2) →
   create_et_pipeline str c module (World s l)
   = (fails (str e),
      World s2
        (l ++ [Call_list_pipelines;
               Call_create_pipeline (Params.name module) (Params.input_bucket module)
                 (Params.output_bucket module) (Params.role module)
                 (fix_up_notifications_dict items)])))
  ∧ (∀ p,
       Params.notifications module = Some items →
       first_named (Params.name module) pipelines = Some p →
       pipeline_dict p ≠ module_dict module items →
       update_pipeline c (Id p) (Params.name module) (Params.input_bucket module)
         (Params.role module) (fix_up_notifications_dict items) s1 = (inl e, s2) →
       create_et_pipeline str c module (World s l)
       = (fails (str e),
          World s2
            (l ++ [Call_list_pipelines;
                   Call_update_pipeline (Id p) (Params.name module)
                     (Params.input_bucket module) (Params.role module)
                     (fix_up_notifications_dict items)])))
  ∧ (∀ p,
       first_named (Params.name module) pipelines = Some p →
       delete_pipeline c (Id p) s1 = (inl e, s2) →
       delete_et_pipeline str c module (World s l)
       = (fails (str e),
          World s2 (l ++ [Call_list_pipelines; Call_delete_pipeline (Id p)]))).
Proof.
  intros Hl. split; [|split].
  - intros Hn Hf Hc.
    by rewrite (create_et_pipeline_missing _ _ _ _ _ _ Hn Hl Hf), Hc.
  - intros p Hn Hf Hne Hu.
    rewrite (create_et_pipeline_found _ _ _ _ _ _ _ Hn Hl Hf), Hu.
    by rewrite bool_decide_false.
  - intros p Hf Hd.
    by rewrite (delete_et_pipeline_runs _ _ _ _ _ Hl), Hf, Hd.
Qed.

(** ** What a successful run reports *)

(** C9, as the code has it.  A run that ends in [exit_json] started with a
    listing that returned.  For [state=present] it reports [changed], [name]
    and [Id]: when the listing has a pipeline of the desired name, the name
    and id are those of the first such pipeline and [changed] tells whether
    it differed from the desired state; when it has none, [create_pipeline]
    returned, the second lookup found a pipeline, and the report is
    [changed=True] with the name and id of that pipeline.  The name reported
    is always the desired name.  For [state=absent] it reports
    [changed=True] and the [Id] of the first pipeline of that name, the one
    handed to [delete_pipeline], and no name, when the listing has one, and
    only [changed=False] when it has none. *)
Theorem exit_json_reports module (w w' : world remote) kwargs :
  main str c module w = (exits kwargs, w') →
  ∃ pipelines s1,
    list_pipelines c (service w) = (inr pipelines, s1)
    ∧ match Params.state module with
      | present =>
          ∃ items,
            Params.notifications module = Some items
            ∧ match first_named (Params.name module) pipelines with
              | Some p =>
                  kwargs
                  = [("changed",
                      VBool (negb (bool_decide
                                     (pipeline_dict p = module_dict module items))));
                     ("name", VStr (Params.name module));
                     ("Id", of_get (Id p))]
              | None =>
                  ∃ s2 pipelines' s3 p',
                    create_pipeline c (Params.name module)
                      (Params.input_bucket module) (Params.output_bucket module)
                      (Params.role module) (fix_up_notifications_dict items) s1
                    = (inr (), s2)
                    ∧ list_pipelines c s2 = (inr pipelines', s3)
                    ∧ first_named (Params.name module) pipelines' = Some p'
                    ∧ kwargs
                      = [("changed", VBool true);
                         ("name", VStr (Params.name module));
                         ("Id", of_get (Id p'))]
              end
      | absent =>
          match first_named (Params.name module) pipelines with
          | Some p => kwargs = [("changed", VBool true); ("Id", of_get (Id p))]
          | None => kwargs = [("changed", VBool false)]
          end
      end.
Proof.
  destruct w as [s l]. unfold main. cbn [service]. intros H.
  destruct (list_pipelines c s) as [[e|pipelines] s1] eqn:Hl.
  - exfalso. destruct (Params.state module).
    + unfold create_et_pipeline, bind at 1, iteritems in H.
      destruct (Params.notifications module); [|discriminate H].
      unfold ret at 1, bind at 1 in H.
      by rewrite (get_et_pipeline_raises _ _ _ _ _ Hl) in H.
    + unfold delete_et_pipeline, bind at 1 in H.
      by rewrite (get_et_pipeline_raises _ _ _ _ _ Hl) in H.
  - exists pipelines, s1. split; [done|].
    destruct (Params.state module).
    + destruct (Params.notifications module) as [items|] eqn:Hn.
      * exists items. split; [done|].
        destruct (first_named (Params.name module) pipelines) as [p|] eqn:Hf.
        -- rewrite (create_et_pipeline_found _ _ _ _ _ _ _ Hn Hl Hf) in H.
           pose proof (first_named_name _ _ _ Hf) as Hname.
           unfold report in H. rewrite Hname in H. cbn [of_get] in H.
           destruct (bool_decide _).
           { by injection H as <- _. }
           destruct (update_pipeline c _ _ _ _ _ s1) as [[e|[]] s2];
             [discriminate H|].
           by injection H as <- _.
        -- rewrite (create_et_pipeline_missing _ _ _ _ _ _ Hn Hl Hf) in H.
           destruct (create_pipeline c _ _ _ _ _ s1) as [[e|[]] s2] eqn:Hc;
             [discriminate H|].
           destruct (list_pipelines c s2) as [[e|pipelines'] s3] eqn:Hl';
             [discriminate H|].
           destruct (first_named _ pipelines') as [p'|] eqn:Hf';
             [|discriminate H].
           pose proof (first_named_name _ _ _ Hf') as Hname.
           unfold report in H. rewrite Hname in H. cbn [of_get] in H.
           injection H as <- _. by exists s2, pipelines', s3, p'.
      * unfold create_et_pipeline, bind at 1, iteritems in H.
        rewrite Hn in H. discriminate H.
    + rewrite (delete_et_pipeline_runs _ _ _ _ _ Hl) in H.
      destruct (first_named _ pipelines) as [p|].
      * destruct (delete_pipeline c (Id p) s1) as [[e|[]] s2];
          [discriminate H|].
        by injection H as <- _.
      * by injection H as <- _.
Qed.

End Convergence.

(** ** The properties on the sample service *)

(** A pipeline like the sample one but for its role. *)
Definition stale_pipeline : pipeline :=
  Sample.created "prod" (Some "in") (Some "elsewhere") (Some "arn:old-role")
    Sample.prod_notifications.

Definition prod_items : list (string * string) :=
  [("progressing", ""); ("completed", "arn:1"); ("warning", "arn:1"); ("error", "arn:1")].

Definition prod_create : call :=
  Call_create_pipeline "prod" (Some "in") (Some "out") (Some "arn:role")
    Sample.prod_notifications.

Definition prod_update : call :=
  Call_update_pipeline (Some "id-prod") "prod" (Some "in") (Some "arn:role")
    Sample.prod_notifications.

(** C9, counterexample.  Deleting the sample pipeline succeeds and reports
    [changed] and [Id] only: there is no [name] among the keyword arguments
    of [exit_json]. *)
Lemma successful_delete_reports_no_name :
  main id Sample.conn (Sample.prod absent) (Sample.start [Sample.prod_pipeline])
  = (inl (SystemExit (exit_json [("changed", VBool true); ("Id", VStr "id-prod")])),
     World [] [Call_list_pipelines; Call_delete_pipeline (Some "id-prod")])
  ∧ "name" ∉ [("changed", VBool true); ("Id", VStr "id-prod")].*1.
Proof.
  split; [vm_compute; reflexivity|].
  cbn. set_unfold. intros [H | [H | []]]; discriminate H.
Qed.

Lemma create_et_pipeline_equal_is_noop_witness :
  create_et_pipeline id Sample.conn (Sample.prod present)
    (World [Sample.prod_pipeline] [])
  = (inl (SystemExit (exit_json
       [("changed", VBool false); ("name", VStr "prod"); ("Id", VStr "id-prod")])),
     World [Sample.prod_pipeline] [Call_list_pipelines]).
Proof.
  apply (create_et_pipeline_equal_is_noop id Sample.conn (Sample.prod present)
           prod_items [Sample.prod_pipeline] [] [Sample.prod_pipeline]
           [Sample.prod_pipeline] Sample.prod_pipeline);
    vm_compute; reflexivity.
Defined.

Lemma create_et_pipeline_creates_witness :
  create_et_pipeline id Sample.conn (Sample.prod present) (World [] [])
  = (inl (SystemExit (exit_json
       [("changed", VBool true); ("name", VStr "prod"); ("Id", VStr "id-prod")])),
     World [Sample.prod_pipeline]
       [Call_list_pipelines; prod_create; Call_list_pipelines]).
Proof.
  apply (proj2 (create_et_pipeline_creates id Sample.conn (Sample.prod present)
                  prod_items [] [] [] [] eq_refl eq_refl eq_refl)
           [Sample.prod_pipeline] [Sample.prod_pipeline] [Sample.prod_pipeline]
           Sample.prod_pipeline);
    vm_compute; reflexivity.
Defined.

Lemma delete_et_pipeline_converges_witness :
  delete_et_pipeline id Sample.conn (Sample.prod absent) (World [] [])
  = (inl (SystemExit (exit_json [("changed", VBool false)])),
     World [] [Call_list_pipelines])
  ∧ delete_et_pipeline id Sample.conn (Sample.prod absent)
      (World [Sample.prod_pipeline; stale_pipeline] [])
    = (inl (SystemExit (exit_json [("changed", VBool true); ("Id", VStr "id-prod")])),
       World [] [Call_list_pipelines; Call_delete_pipeline (Some "id-prod")]).
Proof.
  split.
  - apply (proj1 (delete_et_pipeline_converges id Sample.conn (Sample.prod absent)
                    [] [] [] [] eq_refl)).
    reflexivity.
  - apply (proj2 (delete_et_pipeline_converges id Sample.conn (Sample.prod absent)
                    [Sample.prod_pipeline; stale_pipeline] []
                    [Sample.prod_pipeline; stale_pipeline]
                    [Sample.prod_pipeline; stale_pipeline] eq_refl)
             Sample.prod_pipeline);
      vm_compute; reflexivity.
Defined.

Lemma create_et_pipeline_update_omits_output_bucket_witness :
  create_et_pipeline id Sample.conn (Sample.prod present) (World [stale_pipeline] [])
  = (inl (SystemExit (exit_json
       [("changed", VBool true); ("name", VStr "prod"); ("Id", VStr "id-prod")])),
     World [Sample.created "prod" (Some "in") (Some "elsewhere") (Some "arn:role")
              Sample.prod_notifications]
       [Call_list_pipelines; prod_update]).
Proof.
  assert (pipeline_dict stale_pipeline ≠ module_dict (Sample.prod present) prod_items)
    as Hne by (vm_compute; discriminate).
  apply (proj1 (proj2 (create_et_pipeline_update_omits_output_bucket id Sample.conn
                         (Sample.prod present) prod_items [stale_pipeline] []
                         [stale_pipeline] [stale_pipeline] stale_pipeline
                         eq_refl eq_refl eq_refl Hne))).
  vm_compute; reflexivity.
Defined.

Lemma et_pipeline_equal_four_fields_witness :
  et_pipeline_equal (BotoServerError := string) stale_pipeline (Sample.prod present)
    (World [stale_pipeline] [])
  = (inr false, World [stale_pipeline] [])
  ∧ create_et_pipeline id Sample.conn (Sample.prod present)
      (World [set_OutputBucket (Some "elsewhere") Sample.prod_pipeline] [])
    = (inl (SystemExit (exit_json
         [("changed", VBool false); ("name", VStr "prod"); ("Id", VStr "id-prod")])),
       World [set_OutputBucket (Some "elsewhere") Sample.prod_pipeline]
         [Call_list_pipelines]).
Proof.
  split.
  - rewrite (proj1 (et_pipeline_equal_four_fields id Sample.conn (Sample.prod present)
                      prod_items stale_pipeline eq_refl)).
    vm_compute; reflexivity.
  - apply (proj2 (proj2 (et_pipeline_equal_four_fields id Sample.conn
                           (Sample.prod present) prod_items Sample.prod_pipeline
                           eq_refl))
             [set_OutputBucket (Some "elsewhere") Sample.prod_pipeline] []
             [set_OutputBucket (Some "elsewhere") Sample.prod_pipeline]
             [set_OutputBucket (Some "elsewhere") Sample.prod_pipeline]
             (Some "elsewhere") (Some "out"));
      vm_compute; reflexivity.
Defined.


Lemma get_et_pipeline_first_match_witness :
  get_et_pipeline (BotoServerError := string) Sample.conn "prod"
    (World [stale_pipeline; Sample.prod_pipeline] [])
  = (inr (Some stale_pipeline),
     World [stale_pipeline; Sample.prod_pipeline] [Call_list_pipelines]).
Proof.
  destruct (get_et_pipeline_first_match Sample.conn "prod"
              [stale_pipeline; Sample.prod_pipeline] []
              [stale_pipeline; Sample.prod_pipeline]
              [stale_pipeline; Sample.prod_pipeline] eq_refl)
    as (found & Hrun & Hfirst & _).
  rewrite Hrun. f_equal. f_equal.
  apply Hfirst. exists [], [Sample.prod_pipeline]. repeat split. constructor.
Defined.

Lemma remote_error_aborts_witness :
  create_et_pipeline id (Sample.read_only "AccessDenied") (Sample.prod present)
    (World [] [])
  = (inl (SystemExit (fail_json "AccessDenied")),
     World [] [Call_list_pipelines; prod_create])
  ∧ create_et_pipeline id (Sample.read_only "AccessDenied") (Sample.prod present)
      (World [stale_pipeline] [])
    = (inl (SystemExit (fail_json "AccessDenied")),
       World [stale_pipeline] [Call_list_pipelines; prod_update])
  ∧ delete_et_pipeline id (Sample.read_only "AccessDenied") (Sample.prod absent)
      (World [stale_pipeline] [])
    = (inl (SystemExit (fail_json "AccessDenied")),
       World [stale_pipeline] [Call_list_pipelines; Call_delete_pipeline (Some "id-prod")]).
Proof.
  assert (pipeline_dict stale_pipeline ≠ module_dict (Sample.prod present) prod_items)
    as Hne by (vm_compute; discriminate).
  split; [|split].
  - apply (proj1 (remote_error_aborts id (Sample.read_only "AccessDenied")
                    (Sample.prod present) prod_items [] [] [] [] "AccessDenied" []
                    eq_refl));
      reflexivity.
  - apply (proj1 (proj2 (remote_error_aborts id (Sample.read_only "AccessDenied")
                           (Sample.prod present) prod_items [stale_pipeline] []
                           [stale_pipeline] [stale_pipeline] "AccessDenied"
                           [stale_pipeline] eq_refl))
             stale_pipeline eq_refl eq_refl Hne).
    reflexivity.
  - apply (proj2 (proj2 (remote_error_aborts id (Sample.read_only "AccessDenied")
                           (Sample.prod absent) prod_items [stale_pipeline] []
                           [stale_pipeline] [stale_pipeline] "AccessDenied"
                           [stale_pipeline] eq_refl))
             stale_pipeline eq_refl).
    reflexivity.
Defined.

Lemma exit_json_reports_witness :
  ∃ pipelines s1,
    list_pipelines Sample.conn [stale_pipeline] = (inr pipelines, s1)
    ∧ ∃ items,
        Params.notifications (Sample.prod present) = Some items
        ∧ match first_named "prod" pipelines with
          | Some p =>
              [("changed", VBool true); ("name", VStr "prod"); ("Id", VStr "id-prod")]
              = [("changed",
                  VBool (negb (bool_decide
                                 (pipeline_dict p
                                  = module_dict (Sample.prod present) items))));
                 ("name", VStr "prod"); ("Id", of_get (Id p))]
          | None =>
              ∃ s2 pipelines' s3 p',
                create_pipeline Sample.conn "prod" (Some "in") (Some "out")
                  (Some "arn:role") (fix_up_notifications_dict items) s1
                = (inr (), s2)
                ∧ list_pipelines Sample.conn s2 = (inr pipelines', s3)
                ∧ first_named "prod" pipelines' = Some p'
                ∧ [("changed", VBool true); ("name", VStr "prod");
                   ("Id", VStr "id-prod")]
                  = [("changed", VBool true); ("name", VStr "prod");
                     ("Id", of_get (Id p'))]
          end.
Proof.
  apply (exit_json_reports id Sample.conn (Sample.prod present)
           (World [stale_pipeline] [])
           (World [Sample.created "prod" (Some "in") (Some "elsewhere")
                     (Some "arn:role") Sample.prod_notifications]
              [Call_list_pipelines; prod_update])
           [("changed", VBool true); ("name", VStr "prod"); ("Id", VStr "id-prod")]).
  vm_compute; reflexivity.
Defined.

Lemma create_et_pipeline_refetch_none_witness :
  create_et_pipeline id Sample.lagging (Sample.prod present) (World [] [])
  = (inl AttributeError,
     World [] [Call_list_pipelines; prod_create; Call_list_pipelines]).
Proof.
  apply (create_et_pipeline_refetch_none id Sample.lagging (Sample.prod present)
           prod_items [] [] [] [] [] [] []);
    reflexivity.
Defined.

(** ** More on the notification-key fix-up *)

Section FixUpMore.

Implicit Types (items : list (string * string)) (k v : string).

(** X1.  The entry under a key is the value of the last item, in iteration order,
    whose titled key is that key: items whose keys differ only by case
    collapse into one entry and the later one wins. *)
Theorem fix_up_lookup_last items k :
  fix_up_notifications_dict items !! k
  = snd <$> last (filter (λ kv, PyStr.title kv.1 = k) items).
Proof.
  induction items as [|[k' v'] items IH] using rev_ind; [done|].
  rewrite fix_up_snoc, lookup_insert, filter_app, filter_cons, filter_nil.
  cbn [fst snd]. case_decide.
  - by rewrite last_snoc.
  - by rewrite app_nil_r.
Qed.

Lemma fix_up_dom items k :
  is_Some (fix_up_notifications_dict items !! k)
  ↔ k ∈ PyStr.title <$> items.*1.
Proof.
  induction items as [|[k' v'] items IH] using rev_ind.
  - unfold fix_up_notifications_dict. cbn. rewrite lookup_empty.
    split; [by intros [? ?]|by intros ?%elem_of_nil].
  - rewrite fix_up_snoc, lookup_insert, !fmap_app, elem_of_app. cbn.
    rewrite list_elem_of_singleton. case_decide as Hk.
    + split; [intros _; by right|by eexists].
    + rewrite IH. split; [by left|]. by intros [?|?].
Qed.

Lemma fix_up_size_le items :
  (size (fix_up_notifications_dict items) ≤ List.length items)%nat.
Proof.
  induction items as [|[k' v'] items IH] using rev_ind; [done|].
  rewrite fix_up_snoc, map_size_insert, length_app. cbn.
  destruct (_ !! _); cbn; lia.
Qed.

(** X2.  The result never has more entries than the dictionary given, and has as
    many exactly when no two keys of it have the same titled form. *)
Theorem fix_up_size items :
  (size (fix_up_notifications_dict items) ≤ List.length items)%nat
  ∧ (size (fix_up_notifications_dict items) = List.length items
     ↔ NoDup (PyStr.title <$> items.*1)).
Proof.
  split; [apply fix_up_size_le|].
  induction items as [|[k' v'] items IH] using rev_ind.
  - split; [constructor|done].
  - rewrite fix_up_snoc, map_size_insert, length_app, !fmap_app. cbn.
    rewrite NoDup_app, <- IH.
    pose proof (fix_up_size_le items) as Hle.
    pose proof (fix_up_dom items (PyStr.title k')) as Hdom.
    destruct (fix_up_notifications_dict items !! PyStr.title k') as [v|] eqn:Hk;
      cbn.
    + split; [lia|]. intros (_ & Hfresh & _). exfalso.
      apply (Hfresh (PyStr.title k')); [apply Hdom; by eexists|].
      apply list_elem_of_singleton. done.
    + split.
      * intros Hsz. split; [lia|]. split; [|apply NoDup_singleton].
        intros k Hin ->%list_elem_of_singleton.
        apply Hdom in Hin. by destruct Hin.
      * intros (Hsz & _). lia.
Qed.

(** [title] does not look at the case of its argument: it gives the same
    result on a string and on its lower-case form. *)
Lemma title_step_lower (prev : bool) (c : ascii) :
  PyStr.title_step prev (PyStr.tolower c) = PyStr.title_step prev c.
Proof. destruct prev, c as [[] [] [] [] [] [] [] []]; reflexivity. Qed.

Lemma title_from_lower (key : string) :
  ∀ prev, PyStr.title_from prev (PyStr.lower key) = PyStr.title_from prev key.
Proof.
  induction key as [|c key IH]; intros prev; [reflexivity|].
  cbn [PyStr.lower PyStr.title_from]. rewrite title_step_lower.
  destruct (PyStr.title_step prev c) as [c' prev']. by rewrite IH.
Qed.

Lemma title_of_lower (key key' : string) :
  PyStr.lower key = PyStr.lower key' → PyStr.title key = PyStr.title key'.
Proof.
  intros H. unfold PyStr.title.
  by rewrite <- (title_from_lower key), <- (title_from_lower key'), H.
Qed.

(** Two dictionaries whose items agree, in iteration order, up to the case
    of the keys: the keys have the same lower-case form ([key.lower()]) and
    the values are the same. *)
Definition same_up_to_case items items' : Prop :=
  Forall2 (λ a b, PyStr.lower a.1 = PyStr.lower b.1 ∧ a.2 = b.2) items items'.

Lemma fix_up_same_up_to_case items items' :
  same_up_to_case items items' →
  fix_up_notifications_dict items = fix_up_notifications_dict items'.
Proof.
  unfold fix_up_notifications_dict. generalize (∅ : gmap string string).
  intros acc H. revert acc.
  induction H as [|[k v] [k' v'] items items' [Hk Hv] _ IH]; intros acc; [done|].
  cbn [foldl fst snd] in *. rewrite (title_of_lower _ _ Hk), Hv. apply IH.
Qed.

End FixUpMore.

(** ** Edge cases and invariants of a run *)

(** The calls of a log that change the remote state. *)
Definition mutations (calls : list call) : list call :=
  filter (λ k, is_mutation k = true) calls.

Definition set_notifications (d : option (list (string * string)))
    (module : Params.t) : Params.t :=
  {| Params.name := Params.name module;
     Params.input_bucket := Params.input_bucket module;
     Params.output_bucket := Params.output_bucket module;
     Params.notifications := d;
     Params.role := Params.role module;
     Params.state := Params.state module |}.

Section Runs.

Context {remote : Type} {BotoServerError : Type}.
Variable str : BotoServerError → string.
Variable c : connection remote BotoServerError.

Implicit Types (module : Params.t) (p : pipeline) (s : remote) (l : list call)
  (items : list (string * string)) (pipelines : list pipeline)
  (w : world remote).

Abbreviation exits kwargs := (inl (SystemExit (exit_json kwargs))) (only parsing).
Abbreviation fails msg := (inl (SystemExit (fail_json msg))) (only parsing).

Lemma create_et_pipeline_no_notifications module w :
  Params.notifications module = None →
  create_et_pipeline str c module w = (inl AttributeError, w).
Proof.
  intros Hn. unfold create_et_pipeline, bind at 1, iteritems. by rewrite Hn.
Qed.

Lemma create_et_pipeline_listing_raises module items s l e s1 :
  Params.notifications module = Some items →
  list_pipelines c s = (inl e, s1) →
  create_et_pipeline str c module (World s l)
  = (inl (Boto e), World s1 (l ++ [Call_list_pipelines])).
Proof.
  intros Hn Hl. unfold create_et_pipeline, bind at 1, iteritems. rewrite Hn.
  unfold ret at 1, bind at 1.
  by rewrite (get_et_pipeline_raises _ _ _ _ _ _ Hl).
Qed.

Lemma delete_et_pipeline_listing_raises module s l e s1 :
  list_pipelines c s = (inl e, s1) →
  delete_et_pipeline str c module (World s l)
  = (inl (Boto e), World s1 (l ++ [Call_list_pipelines])).
Proof.
  intros Hl. unfold delete_et_pipeline, bind at 1.
  by rewrite (get_et_pipeline_raises _ _ _ _ _ _ Hl).
Qed.

(** X4.  Without a [notifications] parameter, [state=present] ends in an uncaught
    [AttributeError] before any call is made, whatever the service holds;
    [state=absent] does not read the parameter and runs as it does with any
    dictionary. *)
Theorem notifications_omitted module w :
  Params.notifications module = None →
  create_et_pipeline str c module w = (inl AttributeError, w)
  ∧ ∀ d, delete_et_pipeline str c module w
         = delete_et_pipeline str c (set_notifications d module) w.
Proof.
  intros Hn. split; [by apply create_et_pipeline_no_notifications|done].
Qed.

(** X5.  A [BotoServerError] raised by the first listing is not caught: the run
    ends with that exception, not with [fail_json], for both states, and the
    listing is the only call made. *)
Theorem first_listing_error_uncaught module s l e s1 :
  list_pipelines c s = (inl e, s1) →
  delete_et_pipeline str c module (World s l)
  = (inl (Boto e), World s1 (l ++ [Call_list_pipelines]))
  ∧ create_et_pipeline str c module (World s l)
    = match Params.notifications module with
      | Some _ => (inl (Boto e), World s1 (l ++ [Call_list_pipelines]))
      | None => (inl AttributeError, World s l)
      end.
Proof.
  intros Hl. split; [by apply delete_et_pipeline_listing_raises|].
  destruct (Params.notifications module) as [items|] eqn:Hn.
  - by apply (create_et_pipeline_listing_raises _ items).
  - by apply create_et_pipeline_no_notifications.
Qed.

(** X6.  A [BotoServerError] raised by the listing that follows a creation is
    caught: the run ends in [fail_json] with [str] of the error, although
    [create_pipeline] has returned and the service is in the state the
    creation left, as the second listing saw it. *)
Theorem refetch_error_after_create module items s l pipelines s1 s2 e s3 :
  Params.notifications module = Some items →
  list_pipelines c s = (inr pipelines, s1) →
  first_named (Params.name module) pipelines = None →
  create_pipeline c (Params.name module) (Params.input_bucket module)
    (Params.output_bucket module) (Params.role module)
    (fix_up_notifications_dict items) s1 = (inr (), s2) →
  list_pipelines c s2 = (inl e, s3) →
  create_et_pipeline str c module (World s l)
  = (fails (str e),
     World s3
       (l ++ [Call_list_pipelines;
              Call_create_pipeline (Params.name module) (Params.input_bucket module)
                (Params.output_bucket module) (Params.role module)
                (fix_up_notifications_dict items);
              Call_list_pipelines])).
Proof.
  intros Hn Hl Hf Hc Hl'.
  rewrite (create_et_pipeline_missing _ _ _ _ _ _ _ _ Hn Hl Hf).
  by rewrite Hc, Hl'.
Qed.

(** The changing calls a run for [module] may issue: a creation or an update
    under the module's name for [state=present], a deletion for
    [state=absent]. *)
Definition mutation_for module (k : call) : Prop :=
  match Params.state module, k with
  | present, Call_create_pipeline n _ _ _ _ => n = Params.name module
  | present, Call_update_pipeline _ n _ _ _ => n = Params.name module
  | absent, Call_delete_pipeline _ => True
  | _, _ => False
  end.

Lemma mutation_for_is_mutation module k :
  mutation_for module k → is_mutation k = true.
Proof. unfold mutation_for. by destruct (Params.state module), k. Qed.

(** Every outcome of [main], by cases on what the connection answers. *)
Inductive outcome_of module s l : (exn BotoServerError + ()) * world remote → Prop :=
| No_notifications :
    Params.state module = present →
    Params.notifications module = None →
    outcome_of module s l (inl AttributeError, World s l)
| Listing_raised e s1 :
    list_pipelines c s = (inl e, s1) →
    outcome_of module s l (inl (Boto e), World s1 (l ++ [Call_list_pipelines]))
| Unchanged pipelines s1 p :
    Params.state module = present →
    list_pipelines c s = (inr pipelines, s1) →
    first_named (Params.name module) pipelines = Some p →
    outcome_of module s l
      (exits (report false p), World s1 (l ++ [Call_list_pipelines]))
| Mutation_raised k e s2 :
    mutation_for module k →
    outcome_of module s l
      (fails (str e), World s2 (l ++ [Call_list_pipelines; k]))
| Updated p k s2 :
    Params.state module = present →
    mutation_for module k →
    outcome_of module s l
      (exits (report true p), World s2 (l ++ [Call_list_pipelines; k]))
| Created k s3 p' :
    Params.state module = present →
    mutation_for module k →
    outcome_of module s l
      (exits (report true p'),
       World s3 (l ++ [Call_list_pipelines; k; Call_list_pipelines]))
| Created_refetch_raised k e s3 :
    Params.state module = present →
    mutation_for module k →
    outcome_of module s l
      (fails (str e),
       World s3 (l ++ [Call_list_pipelines; k; Call_list_pipelines]))
| Created_refetch_none k s3 :
    Params.state module = present →
    mutation_for module k →
    outcome_of module s l
      (inl AttributeError,
       World s3 (l ++ [Call_list_pipelines; k; Call_list_pipelines]))
| Nothing_to_delete pipelines s1 :
    Params.state module = absent →
    list_pipelines c s = (inr pipelines, s1) →
    first_named (Params.name module) pipelines = None →
    outcome_of module s l
      (exits [("changed", VBool false)], World s1 (l ++ [Call_list_pipelines]))
| Deleted p s2 :
    Params.state module = absent →
    outcome_of module s l
      (exits [("changed", VBool true); ("Id", of_get (Id p))],
       World s2 (l ++ [Call_list_pipelines; Call_delete_pipeline (Id p)])).

Lemma main_outcome module s l :
  outcome_of module s l (main str c module (World s l)).
Proof.
  unfold main. destruct (Params.state module) eqn:Hst.
  - assert (∀ id ib role n,
              mutation_for module
                (Call_update_pipeline id (Params.name module) ib role n)) as Hup
      by (intros; unfold mutation_for; by rewrite Hst).
    assert (∀ ib ob role n,
              mutation_for module
                (Call_create_pipeline (Params.name module) ib ob role n)) as Hcr
      by (intros; unfold mutation_for; by rewrite Hst).
    destruct (Params.notifications module) as [items|] eqn:Hn.
    2: { rewrite create_et_pipeline_no_notifications by done. by constructor. }
    destruct (list_pipelines c s) as [[e|pipelines] s1] eqn:Hl.
    { rewrite (create_et_pipeline_listing_raises _ _ _ _ _ _ Hn Hl).
      by constructor. }
    destruct (first_named (Params.name module) pipelines) as [p|] eqn:Hf.
    + rewrite (create_et_pipeline_found _ _ _ _ _ _ _ _ _ Hn Hl Hf).
      destruct (bool_decide _); [by econstructor|].
      destruct (update_pipeline c _ _ _ _ _ s1) as [[e|[]] s2].
      * by apply Mutation_raised.
      * by apply Updated.
    + rewrite (create_et_pipeline_missing _ _ _ _ _ _ _ _ Hn Hl Hf).
      destruct (create_pipeline c _ _ _ _ _ s1) as [[e|[]] s2].
      { by apply Mutation_raised. }
      destruct (list_pipelines c s2) as [[e|pipelines'] s3].
      { by apply Created_refetch_raised. }
      destruct (first_named _ pipelines') as [p'|].
      * by apply Created.
      * by apply Created_refetch_none.
  - destruct (list_pipelines c s) as [[e|pipelines] s1] eqn:Hl.
    { rewrite (delete_et_pipeline_listing_raises _ _ _ _ _ Hl). by constructor. }
    rewrite (delete_et_pipeline_runs _ _ _ _ _ _ _ Hl).
    destruct (first_named _ pipelines) as [p|] eqn:Hf.
    + destruct (delete_pipeline c (Id p) s1) as [[e|[]] s2].
      * apply Mutation_raised. unfold mutation_for. by rewrite Hst.
      * by apply Deleted.
    + by econstructor.
Qed.

Lemma mutations_list_then k :
  is_mutation k = true → mutations [Call_list_pipelines; k] = [k].
Proof.
  intros Hk. unfold mutations.
  rewrite filter_cons_False by done.
  by rewrite filter_cons_True, filter_nil by done.
Qed.

Lemma mutations_list_then_list k :
  is_mutation k = true →
  mutations [Call_list_pipelines; k; Call_list_pipelines] = [k].
Proof.
  intros Hk. unfold mutations.
  rewrite filter_cons_False by done.
  rewrite filter_cons_True by done.
  by rewrite filter_cons_False, filter_nil by done.
Qed.

Lemma mutation_for_state module k :
  mutation_for module k →
  match Params.state module with
  | present => ∀ id, k ≠ Call_delete_pipeline id
  | absent => ∃ id, k = Call_delete_pipeline id
  end.
Proof.
  unfold mutation_for. destruct (Params.state module), k; try done.
  intros _. by eexists.
Qed.

(** X7.  Whatever the service answers, a run starts with a listing, issues at
    most one call that changes the remote state, never [delete_pipeline] for
    [state=present] and nothing but [delete_pipeline] for [state=absent]. *)
Theorem main_at_most_one_mutation module s l :
  ∃ calls,
    log (main str c module (World s l)).2 = l ++ calls
    ∧ (calls = [] ∨ ∃ rest, calls = Call_list_pipelines :: rest)
    ∧ (List.length (mutations calls) ≤ 1)%nat
    ∧ ∀ k, k ∈ mutations calls →
           match Params.state module with
           | present => ∀ id, k ≠ Call_delete_pipeline id
           | absent => ∃ id, k = Call_delete_pipeline id
           end.
Proof.
  destruct (main_outcome module s l);
    repeat match goal with
           | H : mutation_for _ _ |- _ =>
               pose proof (mutation_for_is_mutation _ _ H);
               apply mutation_for_state in H
           end;
    cbn [snd log].
  1: { exists []. rewrite app_nil_r. split; [done|]. split; [by left|].
       split; [cbn; lia|]. by intros k ?%elem_of_nil. }
  all: eexists; (split; [reflexivity|]); (split; [right; by eexists|]).
  all: rewrite ?mutations_list_then, ?mutations_list_then_list by done.
  all: change (mutations [Call_list_pipelines]) with (@nil call).
  all: split; [cbn; lia|].
  all: intros k' Hk'.
  all: try (apply list_elem_of_singleton in Hk' as ->; done).
  all: try (by apply elem_of_nil in Hk').
  apply list_elem_of_singleton in Hk' as ->.
  match goal with H : Params.state _ = _ |- _ => rewrite H end. by eexists.
Qed.

(** X8.  The [changed] flag tells the truth about the calls made: a run that ends
    in [exit_json] reports [changed=True] exactly when it issued a call that
    changes the remote state. *)
Theorem changed_iff_mutation module s l kwargs w' b :
  main str c module (World s l) = (exits kwargs, w') →
  ("changed", VBool b) ∈ kwargs →
  ∃ calls, log w' = l ++ calls ∧ (b = true ↔ mutations calls ≠ []).
Proof.
  intros Hrun Hb. pose proof (main_outcome module s l) as Hout.
  rewrite Hrun in Hout. inversion Hout; subst; clear Hout;
    repeat match goal with
           | H : mutation_for _ _ |- _ => apply mutation_for_is_mutation in H
           end;
    cbn [log]; eexists; (split; [reflexivity|]);
    rewrite ?mutations_list_then, ?mutations_list_then_list by done;
    try change (mutations [Call_list_pipelines]) with (@nil call);
    unfold report in Hb; set_unfold in Hb;
    destruct Hb as [Hb|Hb]; try (injection Hb as ->; by split);
    repeat (destruct Hb as [Hb|Hb]; try discriminate Hb); done.
Qed.

(** X9.  [fail_json] is reached only from the handlers of the two [try] blocks
    and of the one in [delete_et_pipeline]: its message is [str] of a
    [BotoServerError], and a call that changes the remote state has been
    issued before, right after the first listing.  And [main] never falls
    through: every run ends in [exit_json], [fail_json] or an exception. *)
Theorem fail_json_provenance module s l :
  (∀ msg w',
     main str c module (World s l) = (fails msg, w') →
     ∃ e k rest,
       msg = str e
       ∧ log w' = l ++ Call_list_pipelines :: k :: rest
       ∧ mutation_for module k)
  ∧ ∀ w', main str c module (World s l) ≠ (inr (), w').
Proof.
  pose proof (main_outcome module s l) as Hout. split.
  - intros msg w' Hrun. rewrite Hrun in Hout.
    inversion Hout; subst; clear Hout; cbn [log]; by eauto 10.
  - intros w' Hrun. rewrite Hrun in Hout. inversion Hout.
Qed.


Lemma create_et_pipeline_differs_log module items s l pipelines s1 p :
  Params.notifications module = Some items →
  list_pipelines c s = (inr pipelines, s1) →
  first_named (Params.name module) pipelines = Some p →
  pipeline_dict p ≠ module_dict module items →
  log (create_et_pipeline str c module (World s l)).2
  = l ++ [Call_list_pipelines;
          Call_update_pipeline (Id p) (Params.name module)
            (Params.input_bucket module) (Params.role module)
            (fix_up_notifications_dict items)].
Proof.
  intros Hn Hl Hf Hne.
  rewrite (create_et_pipeline_found _ _ _ _ _ _ _ _ _ Hn Hl Hf).
  rewrite bool_decide_false by done.
  by destruct (update_pipeline c _ _ _ _ _ s1) as [[e|[]] s2].
Qed.

(** X11.  An optional parameter left out is not "leave as it is": when [role] or
    [input_bucket] is omitted and the pipeline found has one, the two sides
    differ and [update_pipeline] is called, with [None] for that argument. *)
Theorem omitted_parameter_is_sent module items s l pipelines s1 p :
  Params.notifications module = Some items →
  list_pipelines c s = (inr pipelines, s1) →
  first_named (Params.name module) pipelines = Some p →
  (Params.role module = None ∧ is_Some (Role p))
  ∨ (Params.input_bucket module = None ∧ is_Some (InputBucket p)) →
  ∃ input_bucket role,
    log (create_et_pipeline str c module (World s l)).2
    = l ++ [Call_list_pipelines;
            Call_update_pipeline (Id p) (Params.name module) input_bucket role
              (fix_up_notifications_dict items)]
    ∧ input_bucket = Params.input_bucket module
    ∧ role = Params.role module
    ∧ (input_bucket = None ∨ role = None).
Proof.
  intros Hn Hl Hf Hom.
  exists (Params.input_bucket module), (Params.role module).
  split; [|split; [done|split; [done|]]].
  - apply (create_et_pipeline_differs_log _ _ _ _ _ _ _ Hn Hl Hf).
    unfold pipeline_dict, module_dict. intros [= Hr _ _ Hi].
    destruct Hom as [[Hnone [x Hx]]|[Hnone [x Hx]]]; congruence.
  - destruct Hom as [[? _]|[? _]]; auto.
Qed.

(** X12.  Only the module's side is normalised.  A pipeline whose [Notifications]
    entry is missing, or has a key that [title] would change, never compares
    equal: every [state=present] run on it calls [update_pipeline]. *)
Theorem remote_notifications_not_normalised module items s l pipelines s1 p :
  Params.notifications module = Some items →
  list_pipelines c s = (inr pipelines, s1) →
  first_named (Params.name module) pipelines = Some p →
  Notifications p = None
  ∨ (∃ m k, Notifications p = Some m ∧ is_Some (m !! k) ∧ PyStr.title k ≠ k) →
  log (create_et_pipeline str c module (World s l)).2
  = l ++ [Call_list_pipelines;
          Call_update_pipeline (Id p) (Params.name module)
            (Params.input_bucket module) (Params.role module)
            (fix_up_notifications_dict items)].
Proof.
  intros Hn Hl Hf Hremote.
  apply (create_et_pipeline_differs_log _ _ _ _ _ _ _ Hn Hl Hf).
  unfold pipeline_dict, module_dict. intros [= _ _ Hnotif _].
  destruct Hremote as [Hnone|(m & k & Hm & Hk & Htitle)]; [congruence|].
  rewrite Hm in Hnotif. injection Hnotif as ->.
  by apply fix_up_keys_titled in Hk.
Qed.

(** X3.  The case of the notification keys is irrelevant end to end: two
    dictionaries whose items, in iteration order, have keys with the same
    lower-case form and the same values give the same run, call for
    call. *)
Theorem key_case_is_irrelevant module items items' w :
  Params.notifications module = Some items →
  same_up_to_case items items' →
  main str c (set_notifications (Some items') module) w = main str c module w.
Proof.
  intros Hn Hsame. apply fix_up_same_up_to_case in Hsame.
  unfold main. cbn [Params.state set_notifications].
  destruct (Params.state module); [|done].
  unfold create_et_pipeline, et_pipeline_equal, module_dict, iteritems.
  cbn [Params.name Params.input_bucket Params.output_bucket Params.role
       Params.notifications set_notifications].
  rewrite Hn. unfold bind, ret. by rewrite Hsame.
Qed.

(** ** One run after another *)

(** X13.  What is created is what is compared.  When a first [state=present] run
    creates the pipeline, and the service then lists a pipeline of that name
    with the role, notifications and input bucket it was sent, a second run
    with the same parameters only lists, and reports [changed=False] with
    the id the first run reported. *)
Theorem present_twice_after_create module items s l pipelines s1 s2 pipelines' s3 p'
    pipelines'' s4 :
  Params.notifications module = Some items →
  list_pipelines c s = (inr pipelines, s1) →
  first_named (Params.name module) pipelines = None →
  create_pipeline c (Params.name module) (Params.input_bucket module)
    (Params.output_bucket module) (Params.role module)
    (fix_up_notifications_dict items) s1 = (inr (), s2) →
  list_pipelines c s2 = (inr pipelines', s3) →
  first_named (Params.name module) pipelines' = Some p' →
  Role p' = Params.role module →
  Notifications p' = Some (fix_up_notifications_dict items) →
  InputBucket p' = Params.input_bucket module →
  list_pipelines c s3 = (inr pipelines'', s4) →
  first_named (Params.name module) pipelines'' = Some p' →
  ∃ w1,
    create_et_pipeline str c module (World s l) = (exits (report true p'), w1)
    ∧ create_et_pipeline str c module w1
      = (exits (report false p'), World s4 (log w1 ++ [Call_list_pipelines])).
Proof.
  intros Hn Hl Hf Hc Hl' Hf' Hrole Hnotif Hin Hl'' Hf''.
  eexists. split.
  - rewrite (create_et_pipeline_missing _ _ _ _ _ _ _ _ Hn Hl Hf).
    by rewrite Hc, Hl', Hf'.
  - rewrite (create_et_pipeline_found _ _ _ _ _ _ _ _ _ Hn Hl'' Hf'').
    rewrite bool_decide_true; [done|].
    unfold pipeline_dict, module_dict.
    by rewrite Hrole, Hnotif, Hin, (first_named_name _ _ _ Hf').
Qed.

(** X14.  What is updated is what is compared.  When a first run updates the
    pipeline, and the service then lists under that name a pipeline with the
    role, notifications and input bucket it was sent, a second run with the
    same parameters only lists and reports [changed=False]. *)
Theorem present_twice_after_update module items s l pipelines s1 p s2 pipelines' s3 p' :
  Params.notifications module = Some items →
  list_pipelines c s = (inr pipelines, s1) →
  first_named (Params.name module) pipelines = Some p →
  pipeline_dict p ≠ module_dict module items →
  update_pipeline c (Id p) (Params.name module) (Params.input_bucket module)
    (Params.role module) (fix_up_notifications_dict items) s1 = (inr (), s2) →
  list_pipelines c s2 = (inr pipelines', s3) →
  first_named (Params.name module) pipelines' = Some p' →
  Role p' = Params.role module →
  Notifications p' = Some (fix_up_notifications_dict items) →
  InputBucket p' = Params.input_bucket module →
  ∃ w1,
    create_et_pipeline str c module (World s l) = (exits (report true p), w1)
    ∧ create_et_pipeline str c module w1
      = (exits (report false p'), World s3 (log w1 ++ [Call_list_pipelines])).
Proof.
  intros Hn Hl Hf Hne Hu Hl' Hf' Hrole Hnotif Hin.
  eexists. split.
  - rewrite (create_et_pipeline_found _ _ _ _ _ _ _ _ _ Hn Hl Hf), Hu.
    by rewrite bool_decide_false.
  - rewrite (create_et_pipeline_found _ _ _ _ _ _ _ _ _ Hn Hl' Hf').
    rewrite bool_decide_true; [done|].
    unfold pipeline_dict, module_dict.
    by rewrite Hrole, Hnotif, Hin, (first_named_name _ _ _ Hf').
Qed.

(** X15.  The id that a creating [state=present] run reports is the id that a
    following [state=absent] run with the same name hands to
    [delete_pipeline], as long as the listing still shows that pipeline
    first; and once the service lists no pipeline of that name, a further
    [state=absent] run only lists and reports [changed=False]. *)
Theorem present_then_absent module module' items s l pipelines s1 s2 pipelines' s3 p'
    pipelines'' s4 s5 pipelines''' s6 :
  Params.notifications module = Some items →
  Params.name module' = Params.name module →
  list_pipelines c s = (inr pipelines, s1) →
  first_named (Params.name module) pipelines = None →
  create_pipeline c (Params.name module) (Params.input_bucket module)
    (Params.output_bucket module) (Params.role module)
    (fix_up_notifications_dict items) s1 = (inr (), s2) →
  list_pipelines c s2 = (inr pipelines', s3) →
  first_named (Params.name module) pipelines' = Some p' →
  list_pipelines c s3 = (inr pipelines'', s4) →
  first_named (Params.name module) pipelines'' = Some p' →
  delete_pipeline c (Id p') s4 = (inr (), s5) →
  list_pipelines c s5 = (inr pipelines''', s6) →
  first_named (Params.name module) pipelines''' = None →
  ∃ w1 w2,
    create_et_pipeline str c module (World s l)
    = (exits [("changed", VBool true); ("name", of_get (Name p'));
              ("Id", of_get (Id p'))], w1)
    ∧ delete_et_pipeline str c module' w1
      = (exits [("changed", VBool true); ("Id", of_get (Id p'))], w2)
    ∧ log w2 = log w1 ++ [Call_list_pipelines; Call_delete_pipeline (Id p')]
    ∧ delete_et_pipeline str c module' w2
      = (exits [("changed", VBool false)],
         World s6 (log w2 ++ [Call_list_pipelines])).
Proof.
  intros Hn Hname Hl Hf Hc Hl' Hf' Hl'' Hf'' Hd Hl''' Hf'''.
  do 2 eexists. split; [|split; [|split]].
  - rewrite (create_et_pipeline_missing _ _ _ _ _ _ _ _ Hn Hl Hf).
    by rewrite Hc, Hl', Hf'.
  - rewrite (delete_et_pipeline_runs _ _ _ _ _ _ _ Hl'').
    by rewrite Hname, Hf'', Hd.
  - done.
  - rewrite (delete_et_pipeline_runs _ _ _ _ _ _ _ Hl''').
    by rewrite Hname, Hf'''.
Qed.

End Runs.

(** ** The set-up in [main] *)

Section Setup.

Context {remote : Type} {BotoServerError : Type}.
Variable str : BotoServerError → string.

(** X16.  The checks of [main] come before any call on the service and in this
    order: without boto the run fails with that message whatever the region;
    with boto but no region, or an empty one, it fails with the region
    message; an exception of [connect_to_aws] is reported by its [str]; the
    log and the service are left as they were in all three cases.  Otherwise
    the run is the dispatch on the connection made. *)
Theorem main_setup (env : Script.environment (remote := remote)
                           (BotoServerError := BotoServerError))
    (module : Params.t) (w : world remote) :
  (Script.HAS_BOTO env = false →
   Script.main str env module w
   = (inl (SystemExit (fail_json "boto required for this module")), w))
  ∧ (Script.HAS_BOTO env = true →
     Script.region env = None ∨ Script.region env = Some "" →
     Script.main str env module w
     = (inl (SystemExit (fail_json "region must be specified")), w))
  ∧ (∀ r,
       Script.HAS_BOTO env = true →
       Script.region env = Some r → r ≠ "" →
       Script.main str env module w
       = match Script.connect_to_aws env r with
         | inl msg => (inl (SystemExit (fail_json msg)), w)
         | inr connection => main str connection module w
         end).
Proof.
  unfold Script.main, Script.region_given. split; [|split].
  - by intros ->.
  - intros -> [-> | ->]; done.
  - intros r -> -> Hr. cbn. rewrite decide_False by done.
    by destruct (Script.connect_to_aws env r).
Qed.

End Setup.

(** ** The further properties on sample services *)

(** A service that cannot be reached: every call raises [msg]. *)
Definition unreachable (msg : string) : connection (list pipeline) string :=
  {| list_pipelines := λ s, (inl msg, s);
     create_pipeline := λ _ _ _ _ _ s, (inl msg, s);
     update_pipeline := λ _ _ _ _ _ s, (inl msg, s);
     delete_pipeline := λ _ s, (inl msg, s) |}.

(** A service that stores as [Sample.conn] does but refuses to list once it
    holds a pipeline. *)
Definition throttled (msg : string) : connection (list pipeline) string :=
  {| list_pipelines := λ s, match s with [] => (inr s, s) | _ => (inl msg, s) end;
     create_pipeline := create_pipeline Sample.conn;
     update_pipeline := update_pipeline Sample.conn;
     delete_pipeline := delete_pipeline Sample.conn |}.

Definition prod_upper_items : list (string * string) :=
  [("PROGRESSING", ""); ("Completed", "arn:1"); ("wARNING", "arn:1"); ("error", "arn:1")].

Definition prod_without_role : Params.t :=
  {| Params.name := "prod"; Params.input_bucket := Some "in";
     Params.output_bucket := Some "out"; Params.notifications := Some prod_items;
     Params.role := None; Params.state := present |}.

(** A pipeline as a service that keeps the keys in lower case would list
    it. *)
Definition lower_case_pipeline : pipeline :=
  {| Id := Some "id-prod"; Name := Some "prod"; Role := Some "arn:role";
     InputBucket := Some "in"; OutputBucket := Some "out";
     Notifications := Some (list_to_map prod_items) |}.

Example fix_up_collapses :
  fix_up_notifications_dict [("warning", "a"); ("WARNING", "b")]
  = {[ "Warning" := "b" ]}.
Proof. reflexivity. Qed.

Lemma key_case_is_irrelevant_witness :
  main id Sample.conn
    (set_notifications (Some prod_upper_items) (Sample.prod present))
    (World [Sample.prod_pipeline] [])
  = main id Sample.conn (Sample.prod present) (World [Sample.prod_pipeline] []).
Proof.
  apply (key_case_is_irrelevant id Sample.conn (Sample.prod present) prod_items
           prod_upper_items (World [Sample.prod_pipeline] []) eq_refl).
  repeat constructor.
Defined.

Lemma notifications_omitted_witness :
  create_et_pipeline id Sample.conn (set_notifications None (Sample.prod present))
    (World [Sample.prod_pipeline] [])
  = (inl AttributeError, World [Sample.prod_pipeline] []).
Proof.
  apply (notifications_omitted id Sample.conn
           (set_notifications None (Sample.prod present))
           (World [Sample.prod_pipeline] []) eq_refl).
Defined.

Lemma first_listing_error_uncaught_witness :
  delete_et_pipeline id (unreachable "Timeout") (Sample.prod absent) (World [] [])
  = (inl (Boto "Timeout"), World [] [Call_list_pipelines]).
Proof.
  apply (first_listing_error_uncaught id (unreachable "Timeout") (Sample.prod absent)
           [] [] "Timeout" [] eq_refl).
Defined.

Lemma refetch_error_after_create_witness :
  create_et_pipeline id (throttled "Throttling") (Sample.prod present) (World [] [])
  = (inl (SystemExit (fail_json "Throttling")),
     World [Sample.prod_pipeline]
       [Call_list_pipelines; prod_create; Call_list_pipelines]).
Proof.
  apply (refetch_error_after_create id (throttled "Throttling") (Sample.prod present)
           prod_items [] [] [] [] [Sample.prod_pipeline] "Throttling"
           [Sample.prod_pipeline]);
    vm_compute; reflexivity.
Defined.

Lemma changed_iff_mutation_witness :
  ∃ calls,
    [Call_list_pipelines; prod_update] = [] ++ calls
    ∧ (true = true ↔ mutations calls ≠ []).
Proof.
  apply (changed_iff_mutation id Sample.conn (Sample.prod present) [stale_pipeline] []
           [("changed", VBool true); ("name", VStr "prod"); ("Id", VStr "id-prod")]
           (World [Sample.created "prod" (Some "in") (Some "elsewhere")
                     (Some "arn:role") Sample.prod_notifications]
              [Call_list_pipelines; prod_update])
           true).
  - vm_compute; reflexivity.
  - set_solver.
Defined.

Lemma fail_json_provenance_witness :
  ∃ e k rest,
    "AccessDenied" = id e
    ∧ [Call_list_pipelines; prod_create] = [] ++ Call_list_pipelines :: k :: rest
    ∧ mutation_for (Sample.prod present) k.
Proof.
  apply (proj1 (fail_json_provenance id (Sample.read_only "AccessDenied")
                  (Sample.prod present) [] [])
           "AccessDenied" (World [] [Call_list_pipelines; prod_create])).
  vm_compute; reflexivity.
Defined.


Lemma omitted_parameter_is_sent_witness :
  ∃ input_bucket role,
    log (create_et_pipeline id Sample.conn prod_without_role
           (World [Sample.prod_pipeline] [])).2
    = [] ++ [Call_list_pipelines;
             Call_update_pipeline (Some "id-prod") "prod" input_bucket role
               (fix_up_notifications_dict prod_items)]
    ∧ input_bucket = Some "in"
    ∧ role = None
    ∧ (input_bucket = None ∨ role = None).
Proof.
  apply (omitted_parameter_is_sent id Sample.conn prod_without_role prod_items
           [Sample.prod_pipeline] [] [Sample.prod_pipeline] [Sample.prod_pipeline]
           Sample.prod_pipeline eq_refl eq_refl eq_refl).
  left. split; [reflexivity|]. by eexists.
Defined.

Lemma remote_notifications_not_normalised_witness :
  log (create_et_pipeline id Sample.conn (Sample.prod present)
         (World [lower_case_pipeline] [])).2
  = [] ++ [Call_list_pipelines;
           Call_update_pipeline (Some "id-prod") "prod" (Some "in") (Some "arn:role")
             (fix_up_notifications_dict prod_items)].
Proof.
  apply (remote_notifications_not_normalised id Sample.conn (Sample.prod present)
           prod_items [lower_case_pipeline] [] [lower_case_pipeline]
           [lower_case_pipeline] lower_case_pipeline eq_refl eq_refl eq_refl).
  right. exists (list_to_map prod_items), "warning".
  split; [reflexivity|]. split; [by eexists|]. vm_compute. discriminate.
Defined.

Lemma present_twice_after_create_witness :
  ∃ w1,
    create_et_pipeline id Sample.conn (Sample.prod present) (World [] [])
    = (inl (SystemExit (exit_json (report true Sample.prod_pipeline))), w1)
    ∧ create_et_pipeline id Sample.conn (Sample.prod present) w1
      = (inl (SystemExit (exit_json (report false Sample.prod_pipeline))),
         World [Sample.prod_pipeline] (log w1 ++ [Call_list_pipelines])).
Proof.
  apply (present_twice_after_create id Sample.conn (Sample.prod present) prod_items
           [] [] [] [] [Sample.prod_pipeline] [Sample.prod_pipeline]
           [Sample.prod_pipeline] Sample.prod_pipeline [Sample.prod_pipeline]
           [Sample.prod_pipeline]);
    vm_compute; reflexivity.
Defined.

Lemma present_twice_after_update_witness :
  ∃ w1,
    create_et_pipeline id Sample.conn (Sample.prod present) (World [stale_pipeline] [])
    = (inl (SystemExit (exit_json (report true stale_pipeline))), w1)
    ∧ create_et_pipeline id Sample.conn (Sample.prod present) w1
      = (inl (SystemExit (exit_json
           (report false
              (Sample.created "prod" (Some "in") (Some "elsewhere")
                 (Some "arn:role") Sample.prod_notifications)))),
         World [Sample.created "prod" (Some "in") (Some "elsewhere")
                  (Some "arn:role") Sample.prod_notifications]
           (log w1 ++ [Call_list_pipelines])).
Proof.
  assert (pipeline_dict stale_pipeline ≠ module_dict (Sample.prod present) prod_items)
    as Hne by (vm_compute; discriminate).
  apply (present_twice_after_update id Sample.conn (Sample.prod present) prod_items
           [stale_pipeline] [] [stale_pipeline] [stale_pipeline] stale_pipeline
           [Sample.created "prod" (Some "in") (Some "elsewhere") (Some "arn:role")
              Sample.prod_notifications]
           [Sample.created "prod" (Some "in") (Some "elsewhere") (Some "arn:role")
              Sample.prod_notifications]
           [Sample.created "prod" (Some "in") (Some "elsewhere") (Some "arn:role")
              Sample.prod_notifications]
           (Sample.created "prod" (Some "in") (Some "elsewhere") (Some "arn:role")
              Sample.prod_notifications)
           eq_refl eq_refl eq_refl Hne);
    vm_compute; reflexivity.
Defined.

Lemma present_then_absent_witness :
  ∃ w1 w2,
    create_et_pipeline id Sample.conn (Sample.prod present) (World [] [])
    = (inl (SystemExit (exit_json
         [("changed", VBool true); ("name", VStr "prod"); ("Id", VStr "id-prod")])),
       w1)
    ∧ delete_et_pipeline id Sample.conn (Sample.prod absent) w1
      = (inl (SystemExit (exit_json
           [("changed", VBool true); ("Id", VStr "id-prod")])), w2)
    ∧ log w2
      = log w1 ++ [Call_list_pipelines; Call_delete_pipeline (Some "id-prod")]
    ∧ delete_et_pipeline id Sample.conn (Sample.prod absent) w2
      = (inl (SystemExit (exit_json [("changed", VBool false)])),
         World [] (log w2 ++ [Call_list_pipelines])).
Proof.
  apply (present_then_absent id Sample.conn (Sample.prod present) (Sample.prod absent)
           prod_items [] [] [] [] [Sample.prod_pipeline] [Sample.prod_pipeline]
           [Sample.prod_pipeline] Sample.prod_pipeline [Sample.prod_pipeline]
           [Sample.prod_pipeline] [] [] []);
    vm_compute; reflexivity.
Defined.

Lemma main_setup_witness :
  Script.main id
    {| Script.HAS_BOTO := false; Script.region := None;
       Script.connect_to_aws := λ _, inr Sample.conn |}
    (Sample.prod present) (World [] [])
  = (inl (SystemExit (fail_json "boto required for this module")), World [] [])
  ∧ Script.main id
      {| Script.HAS_BOTO := true; Script.region := Some "";
         Script.connect_to_aws := λ _, inr Sample.conn |}
      (Sample.prod present) (World [] [])
    = (inl (SystemExit (fail_json "region must be specified")), World [] [])
  ∧ Script.main id
      {| Script.HAS_BOTO := true; Script.region := Some "us-west-2";
         Script.connect_to_aws := λ _, inl "No handler was ready to authenticate" |}
      (Sample.prod present) (World ([] : list pipeline) [])
    = (inl (SystemExit (fail_json "No handler was ready to authenticate")),
       World [] []).
Proof.
  split; [|split].
  - apply (proj1 (main_setup id _ (Sample.prod present) (World [] []))).
    reflexivity.
  - apply (proj1 (proj2 (main_setup id _ (Sample.prod present) (World [] []))));
      [reflexivity|by right].
  - apply (proj2 (proj2 (main_setup (BotoServerError := string) id
                           {| Script.HAS_BOTO := true;
                              Script.region := Some "us-west-2";
                              Script.connect_to_aws :=
                                λ _, inl "No handler was ready to authenticate" |}
                           (Sample.prod present) (World [] [])))
             "us-west-2");
      [reflexivity|reflexivity|discriminate].
Defined.
